(** * HttpSensor: the HTTP polling sensor with deferral

    A shallow embedding of
    [providers/http/src/airflow/providers/http/sensors/http.py]:
    [HttpSensor.__init__], [poke], [execute] and [execute_complete].

    Python dictionaries are [gmap string PyValue]; the calls the sensor makes
    on its collaborators (the logger, [HttpHook.run], [defer], the sleep of
    the blocking loop) are recorded in a trace carried by an explicit state,
    and exceptions are an error result. *)

From Stdlib Require Import String.
From stdpp Require Import base option strings list gmap.

Local Open Scope string_scope.
Local Open Scope list_scope.

(** ** Values, exceptions and results *)

(** The fragment of Python's [Any] that the configuration dictionaries,
    the task context and XCom values need. *)
Inductive PyValue : Type :=
  | VNone
  | VBool (b : bool)
  | VInt (z : Z)
  | VStr (s : string).

#[global] Instance PyValue_eq_dec : EqDecision PyValue.
Proof. solve_decision. Defined.

(** The exception classes that [except AirflowException] tells apart:
    the class itself, its subclasses, and everything outside the family
    (a [requests] connection error, a [ValueError], ...). *)
Inductive ExcClass : Type :=
  | AirflowException
  | AirflowSubclass (name : string)
  | OtherException (name : string).

Record Exception : Type := mkException {
  exc_class : ExcClass;
  exc_message : string
}.

(** [isinstance(exc, AirflowException)] *)
Definition is_AirflowException (e : Exception) : bool :=
  match exc_class e with
  | AirflowException | AirflowSubclass _ => true
  | OtherException _ => false
  end.

(** [str(exc)] *)
Definition str (e : Exception) : string := exc_message e.

(** How a call ends: with a value, with an exception, or (only for the
    fuel-bounded blocking loop) still running when the fuel is spent. *)
Inductive CallResult (A : Type) : Type :=
  | Returns (a : A)
  | Raises (e : Exception)
  | Unfinished.
Arguments Returns {A} a.
Arguments Raises {A} e.
Arguments Unfinished {A}.

(** [bool | PokeReturnValue] *)
Inductive PokeResult : Type :=
  | PBool (b : bool)
  | PokeReturnValue (is_done : bool) (xcom_value : PyValue).

(** Truth value of a poke result: [PokeReturnValue.__bool__] is [is_done]. *)
Definition truthy (r : PokeResult) : bool :=
  match r with
  | PBool b => b
  | PokeReturnValue is_done _ => is_done
  end.

(** [str.startswith] with a tuple of prefixes. *)
Definition startswith (m : string) (prefixes : list string) : bool :=
  existsb (fun p => String.prefix p m) prefixes.

(** ** The sensor object *)

Record Response : Type := mkResponse {
  status_code : Z;
  reason : string;
  text : string
}.

(** A [response_check] callable: the parameter names its signature declares
    after the response, whether it declares [**kwargs], and what calling it
    does. *)
Record Callable : Type := mkCallable {
  declared : list string;
  var_keyword : bool;
  call : Response -> gmap string PyValue -> CallResult PokeResult
}.

Record HttpSensor : Type := mkHttpSensor {
  (* BaseSensorOperator *)
  task_id : string;
  poke_interval : N;
  timeout : N;
  (* HttpSensor *)
  endpoint : string;
  http_conn_id : string;
  method : string;
  response_error_codes_allowlist : list string;
  request_params : gmap string PyValue;
  headers : gmap string PyValue;
  extra_options : gmap string PyValue;
  response_check : option Callable;
  tcp_keep_alive : bool;
  tcp_keep_alive_idle : Z;
  tcp_keep_alive_count : Z;
  tcp_keep_alive_interval : Z;
  deferrable : bool;
  request_kwargs : gmap string PyValue
}.

(** The keyword arguments of [HttpSensor.__init__]; [None] where the
    signature's default is [None]. *)
Record InitArgs : Type := mkInitArgs {
  arg_task_id : string;
  arg_poke_interval : N;
  arg_timeout : N;
  arg_endpoint : string;
  arg_http_conn_id : string;
  arg_method : string;
  arg_request_params : option (gmap string PyValue);
  arg_request_kwargs : option (gmap string PyValue);
  arg_headers : option (gmap string PyValue);
  arg_response_error_codes_allowlist : option (list string);
  arg_response_check : option Callable;
  arg_extra_options : option (gmap string PyValue);
  arg_tcp_keep_alive : bool;
  arg_tcp_keep_alive_idle : Z;
  arg_tcp_keep_alive_count : Z;
  arg_tcp_keep_alive_interval : Z;
  arg_deferrable : bool
}.

(** [d or {}] *)
Definition or_empty (d : option (gmap string PyValue)) : gmap string PyValue :=
  match d with
  | Some m => m
  | None => ∅
  end.

Definition init (a : InitArgs) : HttpSensor :=
  {| task_id := arg_task_id a;
     poke_interval := arg_poke_interval a;
     timeout := arg_timeout a;
     endpoint := arg_endpoint a;
     http_conn_id := arg_http_conn_id a;
     method := arg_method a;
     response_error_codes_allowlist :=
       match arg_response_error_codes_allowlist a with
       | None => ["404"]
       | Some l => l
       end;
     request_params := or_empty (arg_request_params a);
     headers := or_empty (arg_headers a);
     extra_options := or_empty (arg_extra_options a);
     response_check := arg_response_check a;
     tcp_keep_alive := arg_tcp_keep_alive a;
     tcp_keep_alive_idle := arg_tcp_keep_alive_idle a;
     tcp_keep_alive_count := arg_tcp_keep_alive_count a;
     tcp_keep_alive_interval := arg_tcp_keep_alive_interval a;
     deferrable := arg_deferrable a;
     request_kwargs := or_empty (arg_request_kwargs a) |}.

(** The signature's defaults, for a given endpoint and task. *)
Definition default_args (task endpoint : string) (deferrable : bool) : InitArgs :=
  {| arg_task_id := task;
     arg_poke_interval := 60;
     arg_timeout := 604800;
     arg_endpoint := endpoint;
     arg_http_conn_id := "http_default";
     arg_method := "GET";
     arg_request_params := None;
     arg_request_kwargs := None;
     arg_headers := None;
     arg_response_error_codes_allowlist := None;
     arg_response_check := None;
     arg_extra_options := None;
     arg_tcp_keep_alive := true;
     arg_tcp_keep_alive_idle := 120;
     arg_tcp_keep_alive_count := 20;
     arg_tcp_keep_alive_interval := 30;
     arg_deferrable := deferrable |}.

(** ** Collaborators and effects *)

(** One [HttpHook(...).run(...)] call: the constructor's arguments and
    the arguments of [run]. *)
Record HookCall : Type := mkHookCall {
  hook_method : string;
  hook_http_conn_id : string;
  hook_tcp_keep_alive : bool;
  hook_tcp_keep_alive_idle : Z;
  hook_tcp_keep_alive_count : Z;
  hook_tcp_keep_alive_interval : Z;
  run_endpoint : string;
  run_data : gmap string PyValue;
  run_headers : gmap string PyValue;
  run_extra_options : gmap string PyValue;
  run_kwargs : gmap string PyValue
}.

(** [HttpSensorTrigger(...)] *)
Record HttpSensorTrigger : Type := mkHttpSensorTrigger {
  trigger_endpoint : string;
  trigger_http_conn_id : string;
  trigger_data : gmap string PyValue;
  trigger_headers : gmap string PyValue;
  trigger_method : string;
  trigger_extra_options : gmap string PyValue;
  trigger_poke_interval : N
}.

(** [timedelta(seconds=...)] *)
Record timedelta : Type := mkTimedelta { seconds : N }.

(** The arguments of one [self.defer(...)] call. *)
Record DeferCall : Type := mkDeferCall {
  defer_timeout : timedelta;
  defer_trigger : HttpSensorTrigger;
  defer_method_name : string
}.

Inductive Event : Type :=
  | LogInfo (msg : string)
  | HookRun (c : HookCall)
  | Defer (d : DeferCall)
  | Sleep (secs : N).

(** What the sensor cannot see from inside: how the endpoint answers the
    n-th request made so far, and how [defer] ends. *)
Record World : Type := mkWorld {
  http : nat -> HookCall -> CallResult Response;
  defer_outcome : DeferCall -> CallResult unit
}.

(** The state threaded through the sensor's methods: the calls made on the
    collaborators, oldest first, and the number of requests sent. *)
Record State : Type := mkState {
  trace : list Event;
  requests : nat
}.

Definition Eff (A : Type) : Type := State -> CallResult A * State.

Definition ret {A} (a : A) : Eff A := fun st => (Returns a, st).

Definition raise {A} (e : Exception) : Eff A := fun st => (Raises e, st).

Definition bind {A B} (c : Eff A) (k : A -> Eff B) : Eff B :=
  fun st =>
    match c st with
    | (Returns a, st') => k a st'
    | (Raises e, st') => (Raises e, st')
    | (Unfinished, st') => (Unfinished, st')
    end.

Declare Scope eff_scope.
Delimit Scope eff_scope with eff.
Notation "x <- c ;; k" := (bind c (fun x => k))
  (at level 100, c at next level, right associativity) : eff_scope.
Notation "c ;;; k" := (bind c (fun _ => k))
  (at level 100, right associativity) : eff_scope.

(** [try: c  except <class> as exc: handler(exc)] *)
Definition try_except {A} (c : Eff A) (catches : Exception -> bool)
    (handler : Exception -> Eff A) : Eff A :=
  fun st =>
    match c st with
    | (Raises e, st') => if catches e then handler e st' else (Raises e, st')
    | other => other
    end.

Definition emit (ev : Event) : Eff unit :=
  fun st => (Returns tt, {| trace := trace st ++ [ev]; requests := requests st |}).

(** Lift the outcome of a call that leaves no mark on the state. *)
Definition outcome {A} (r : CallResult A) : Eff A := fun st => (r, st).

(** [self.log.info(...)] *)
Definition log_info (msg : string) : Eff unit := emit (LogInfo msg).

Section Sensor.

Variable w : World.

(** [hook.run(...)]: the world answers the request, which is counted. *)
Definition hook_run (c : HookCall) : Eff Response :=
  fun st =>
    (http w (requests st) c,
     {| trace := trace st ++ [HookRun c]; requests := S (requests st) |}).

(** [self.defer(...)] *)
Definition defer (d : DeferCall) : Eff unit :=
  (emit (Defer d) ;;; outcome (defer_outcome w d))%eff.

(** Modelled from the spec: [determine_kwargs] of
    [airflow.utils.operator_helpers], which is not part of the sources.
    The keyword arguments are the entries of the context that the callable
    declares as parameters; a callable that declares [**kwargs] gets the
    whole context. *)
Definition determine_kwargs (f : Callable) (context : gmap string PyValue)
    : gmap string PyValue :=
  if var_keyword f then context
  else filter (fun kv => bool_decide (kv.1 ∈ declared f)) context.

(** The request [poke] sends. *)
Definition hook_call (s : HttpSensor) : HookCall :=
  {| hook_method := method s;
     hook_http_conn_id := http_conn_id s;
     hook_tcp_keep_alive := tcp_keep_alive s;
     hook_tcp_keep_alive_idle := tcp_keep_alive_idle s;
     hook_tcp_keep_alive_count := tcp_keep_alive_count s;
     hook_tcp_keep_alive_interval := tcp_keep_alive_interval s;
     run_endpoint := endpoint s;
     run_data := request_params s;
     run_headers := headers s;
     run_extra_options := extra_options s;
     run_kwargs := request_kwargs s |}.

(** The body of the [try] block: [Some v] is [return v] from inside the
    block, [None] falls through to the statement after it. *)
Definition poke_try (s : HttpSensor) (context : gmap string PyValue)
    : Eff (option PokeResult) :=
  (response <- hook_run (hook_call s) ;;
   match response_check s with
   | Some f =>
       let kwargs := determine_kwargs f context in
       v <- outcome (call f response kwargs) ;;
       ret (Some v)
   | None => ret None
   end)%eff.

Definition poke (s : HttpSensor) (context : gmap string PyValue) : Eff PokeResult :=
  (log_info ("Poking: " +:+ endpoint s) ;;;
   r <- try_except (poke_try s context) is_AirflowException
          (fun exc =>
             if startswith (str exc) (response_error_codes_allowlist s)
             then ret (Some (PBool false))
             else raise exc) ;;
   match r with
   | Some v => ret v
   | None => ret (PBool true)
   end)%eff.

(** Modelled from the spec: [BaseSensorOperator.execute], the blocking
    poll loop of the base sensor, which is not part of the sources:
    repeated poke and sleep with an overall timeout.  A satisfied poke ends
    the loop with the value it carries; an unsatisfied one either finds the
    timeout elapsed or sleeps [poke_interval] and retries.  Time passes in
    the sleeps; [fuel] bounds the number of pokes. *)
Definition xcom_of (r : PokeResult) : PyValue :=
  match r with
  | PBool _ => VNone
  | PokeReturnValue _ v => v
  end.

Definition sensor_timeout : Exception :=
  {| exc_class := AirflowSubclass "AirflowSensorTimeout";
     exc_message := "Sensor has timed out" |}.

Fixpoint blocking_loop (fuel : nat) (poke_fn : Eff PokeResult)
    (interval limit elapsed : N) : Eff PyValue :=
  match fuel with
  | O => outcome Unfinished
  | S fuel' =>
      (r <- poke_fn ;;
       if truthy r then ret (xcom_of r)
       else if (limit <? elapsed)%N then raise sensor_timeout
       else (emit (Sleep interval) ;;;
             blocking_loop fuel' poke_fn interval limit (elapsed + interval)%N))%eff
  end.

Definition BaseSensorOperator_execute (fuel : nat) (s : HttpSensor)
    (context : gmap string PyValue) : Eff PyValue :=
  blocking_loop fuel (poke s context) (poke_interval s) (timeout s) 0%N.

(** The [defer] call of [execute]. *)
Definition defer_call (s : HttpSensor) : DeferCall :=
  {| defer_timeout := {| seconds := timeout s |};
     defer_trigger :=
       {| trigger_endpoint := endpoint s;
          trigger_http_conn_id := http_conn_id s;
          trigger_data := request_params s;
          trigger_headers := headers s;
          trigger_method := method s;
          trigger_extra_options := extra_options s;
          trigger_poke_interval := poke_interval s |};
     defer_method_name := "execute_complete" |}.

(** [fuel] is spent only by the blocking loop of the base class. *)
Definition execute (fuel : nat) (s : HttpSensor) (context : gmap string PyValue)
    : Eff PyValue :=
  if negb (deferrable s) || bool_decide (is_Some (response_check s))
  then BaseSensorOperator_execute fuel s context
  else
    (r <- poke s context ;;
     (if negb (truthy r) then defer (defer_call s) else ret tt) ;;;
     ret VNone)%eff.

Definition execute_complete (s : HttpSensor) (context : gmap string PyValue)
    (event : option (gmap string PyValue)) : Eff PyValue :=
  (log_info (task_id s +:+ " completed successfully.") ;;;
   ret VNone)%eff.

End Sensor.

(** ** Reading a run *)

(** The [defer] calls in a trace, oldest first. *)
Definition defer_calls (t : list Event) : list DeferCall :=
  omap (fun ev => match ev with Defer d => Some d | _ => None end) t.

(** The requests in a trace, oldest first. *)
Definition hook_calls (t : list Event) : list HookCall :=
  omap (fun ev => match ev with HookRun c => Some c | _ => None end) t.

Definition initial : State := {| trace := []; requests := 0 |}.

(** The prefix relation of the specification: [m] is [p] followed by
    something. *)
Definition is_prefix_of (p m : string) : Prop := exists rest, m = p +:+ rest.

(** Modelled from the spec: the message of the error that the HTTP
    capability raises for a failing status code, whose format is fixed by
    [HttpHook], not part of the sources: the status code followed by a
    colon and the reason phrase. *)
Definition http_error (code reason : string) : Exception :=
  {| exc_class := AirflowException; exc_message := code +:+ ":" +:+ reason |}.

(** The completion event carries an error. *)
Definition carries_error (event : option (gmap string PyValue)) : Prop :=
  exists d, event = Some d /\ d !! "status" = Some (VStr "error").

(** ** Sample configurations and worlds *)

Definition wait_ready : HttpSensor := init (default_args "wait_ready" "/ready" false).

Definition wait_ready_deferrable : HttpSensor :=
  init (default_args "wait_ready" "/ready" true).

(** A check that passes when the body is [ok] and the task context names
    the expected run. *)
Definition body_ok : Callable :=
  {| declared := ["run_id"];
     var_keyword := false;
     call := fun response kwargs =>
       Returns (PBool (bool_decide (text response = "ok")
                       && bool_decide (kwargs !! "run_id" = Some (VStr "manual")))) |}.

Definition wait_ready_checked : HttpSensor :=
  init {| arg_task_id := "wait_ready";
          arg_poke_interval := 5;
          arg_timeout := 20;
          arg_endpoint := "/ready";
          arg_http_conn_id := "http_default";
          arg_method := "GET";
          arg_request_params := Some {[ "q" := VStr "1" ]};
          arg_request_kwargs := None;
          arg_headers := None;
          arg_response_error_codes_allowlist := Some ["404"; "503"];
          arg_response_check := Some body_ok;
          arg_extra_options := None;
          arg_tcp_keep_alive := true;
          arg_tcp_keep_alive_idle := 120;
          arg_tcp_keep_alive_count := 20;
          arg_tcp_keep_alive_interval := 30;
          arg_deferrable := true |}.

Definition sample_context : gmap string PyValue :=
  {[ "run_id" := VStr "manual"; "ds" := VStr "2024-01-01" ]}.

Definition ok_response : Response :=
  {| status_code := 200; reason := "OK"; text := "ok" |}.

(** A connection error of the [requests] library, outside the
    AirflowException family, whose message happens to start with 404. *)
Definition connection_error : Exception :=
  {| exc_class := OtherException "ConnectionError";
     exc_message := "404 attempts to reach the host failed" |}.

(** [TaskDeferred], with which [defer] leaves the running task. *)
Definition task_deferred : Exception :=
  {| exc_class := OtherException "TaskDeferred"; exc_message := "" |}.

(** A world whose endpoint gives every request the same outcome. *)
Definition steady (r : CallResult Response) (d : CallResult unit) : World :=
  {| http := fun _ _ => r; defer_outcome := fun _ => d |}.

Definition error_event : option (gmap string PyValue) :=
  Some {[ "status" := VStr "error"; "message" := VStr "connection lost" ]}.

(** A check that itself fails with an AirflowException whose message
    starts with 404. *)
Definition check_raises_404 : Callable :=
  {| declared := [];
     var_keyword := false;
     call := fun _ _ =>
       Raises {| exc_class := AirflowException;
                 exc_message := "404 is not what the check expected" |} |}.

(** [wait_ready] with another allow-list and response check. *)
Definition wait_ready_with (allowlist : option (list string))
    (check : option Callable) : HttpSensor :=
  init {| arg_task_id := "wait_ready";
          arg_poke_interval := 60;
          arg_timeout := 604800;
          arg_endpoint := "/ready";
          arg_http_conn_id := "http_default";
          arg_method := "GET";
          arg_request_params := None;
          arg_request_kwargs := None;
          arg_headers := None;
          arg_response_error_codes_allowlist := allowlist;
          arg_response_check := check;
          arg_extra_options := None;
          arg_tcp_keep_alive := true;
          arg_tcp_keep_alive_idle := 120;
          arg_tcp_keep_alive_count := 20;
          arg_tcp_keep_alive_interval := 30;
          arg_deferrable := false |}.

(** ** The REMOTE_USER authentication backend

    [providers/fab/.../api_endpoints/remote_user_api_auth_backend.py]:
    [_lookup_user] and the decorator [requires_authentication].  The
    security manager's [find_user] is a parameter; the calls made on it, on
    the logger and on [login_user], and the call of the decorated function,
    are returned as a trace, oldest first. *)
Module RemoteUserAuth.

Record User : Type := mkUser {
  username : string;
  email : string;
  is_active : bool
}.

(** [flask.Response(body, status)] *)
Record Response : Type := mkResponse {
  body : string;
  status : Z
}.

(** The keyword that [find_user] is called with. *)
Inductive Keyword : Type := ByEmail | ByUsername.

Inductive Arg : Type :=
  | ArgStr (s : string)
  | ArgUser (u : User).

Inductive Event : Type :=
  | Debug (fmt : string) (args : list Arg)
  | FindUser (kw : Keyword) (value : string)
  | LoginUser (user : User) (remember : bool)
  | Call.

(** [security_manager.find_user(email=x) or security_manager.find_user(username=x)],
    then the two guards.  A user object is truthy, so the second lookup is
    made only when the first finds nothing. *)
Definition _lookup_user (find_user : Keyword -> string -> option User)
    (user_email_or_username : string) : option User * list Event :=
  let '(user, lookups) :=
    match find_user ByEmail user_email_or_username with
    | Some u => (Some u, [FindUser ByEmail user_email_or_username])
    | None =>
        (find_user ByUsername user_email_or_username,
         [FindUser ByEmail user_email_or_username;
          FindUser ByUsername user_email_or_username])
    end in
  match user with
  | None => (None, lookups)
  | Some u => if negb (is_active u) then (None, lookups) else (Some u, lookups)
  end.

(** Truth value of [request.remote_user]: [None] and the empty string are
    false. *)
Definition has_user_id (remote_user : option string) : option string :=
  match remote_user with
  | Some user_id => if String.eqb user_id "" then None else Some user_id
  | None => None
  end.

(** The function that [requires_authentication(function)] returns, applied
    to its arguments during a request whose [remote_user] is given. *)
Definition requires_authentication {Args A : Type}
    (find_user : Keyword -> string -> option User) (function : Args -> A)
    (remote_user : option string) (args : Args) : (Response + A) * list Event :=
  match has_user_id remote_user with
  | None =>
      (inl {| body := "Forbidden"; status := 403 |},
       [Debug "Missing REMOTE_USER." []])
  | Some user_id =>
      let '(user, lookups) := _lookup_user find_user user_id in
      let looked := Debug "Looking for user: %s" [ArgStr user_id] :: lookups in
      match user with
      | None => (inl {| body := "Forbidden"; status := 403 |}, looked)
      | Some u =>
          (inr (function args),
           looked ++ [Debug "Found user: %s" [ArgUser u]; LoginUser u false; Call])
      end
  end.

(** The [login_user] calls of a trace, oldest first. *)
Definition logins (t : list Event) : list (User * bool) :=
  omap (fun ev => match ev with LoginUser u r => Some (u, r) | _ => None end) t.

(** How many times the decorated function was called. *)
Definition calls (t : list Event) : nat :=
  length (omap (fun ev => match ev with Call => Some tt | _ => None end) t).

(** A directory of two accounts: alice, deactivated, whose e-mail address
    is the user name of the active account bob. *)
Definition alice : User :=
  {| username := "alice"; email := "shared@example.org"; is_active := false |}.

Definition bob : User :=
  {| username := "shared@example.org"; email := "bob@example.org"; is_active := true |}.

Definition directory (kw : Keyword) (value : string) : option User :=
  match kw with
  | ByEmail =>
      if String.eqb value "shared@example.org" then Some alice
      else if String.eqb value "bob@example.org" then Some bob
      else None
  | ByUsername =>
      if String.eqb value "alice" then Some alice
      else if String.eqb value "shared@example.org" then Some bob
      else None
  end.

End RemoteUserAuth.

(** ** String prefixes *)

Lemma prefix_is_prefix_of (p m : string) :
  String.prefix p m = true <-> is_prefix_of p m.
Proof.
  revert m. induction p as [|a p IH]; intros m.
  - split; [intros _; exists m; reflexivity | intros _; now destruct m].
  - destruct m as [|b m].
    + split; [discriminate | intros [rest H]; discriminate].
    + simpl. destruct (Ascii.ascii_dec a b) as [->|Hne].
      * split.
        -- intros H. apply IH in H as [rest H]. exists rest. simpl. now rewrite H.
        -- intros [rest H]. apply IH. exists rest. simpl in H. now injection H.
      * split; [discriminate |].
        intros [rest H]. simpl in H. injection H as H1 _. congruence.
Qed.

Lemma startswith_some_prefix (m : string) (l : list string) :
  startswith m l = true <-> exists p, p ∈ l /\ is_prefix_of p m.
Proof.
  unfold startswith. rewrite existsb_exists. split.
  - intros (p & Hin & Hp). exists p. split.
    + now apply list_elem_of_In.
    + now apply prefix_is_prefix_of.
  - intros (p & Hin & Hp). exists p. split.
    + now apply list_elem_of_In.
    + now apply prefix_is_prefix_of.
Qed.

Lemma startswith_no_prefix (m : string) (l : list string) :
  startswith m l = false <-> ~ exists p, p ∈ l /\ is_prefix_of p m.
Proof.
  rewrite <- startswith_some_prefix. destruct (startswith m l); split; easy.
Qed.

(** ** What one poke does *)

Ltac unfold_eff :=
  unfold poke, poke_try, try_except, bind, hook_run, defer, log_info, emit,
    outcome, ret, raise; simpl.

Ltac eff_cases :=
  repeat match goal with
    | |- context [http ?w ?n ?c] => destruct (http w n c) eqn:?; simpl
    | |- context [response_check ?s] => destruct (response_check s) eqn:?; simpl
    | |- context [call ?f ?r ?k] => destruct (call f r k) eqn:?; simpl
    | |- context [is_AirflowException ?e] =>
        destruct (is_AirflowException e) eqn:?; simpl
    | |- context [startswith ?m ?l] => destruct (startswith m l) eqn:?; simpl
    end.

Section PokeFacts.

Variable w : World.
Variable s : HttpSensor.
Variable context : gmap string PyValue.
Variable st : State.

(** Whatever the endpoint answers, a poke logs once, sends one request and
    does nothing else. *)
Lemma poke_state :
  (poke w s context st).2 =
    {| trace := trace st ++ [LogInfo ("Poking: " +:+ endpoint s); HookRun (hook_call s)];
       requests := S (requests st) |}.
Proof.
  unfold_eff. rewrite <- app_assoc; simpl.
  eff_cases; reflexivity.
Qed.

(** The request raises: only the exception class and the allow-list decide. *)
Lemma poke_request_raises (e : Exception) :
  http w (requests st) (hook_call s) = Raises e ->
  (poke w s context st).1 =
    if is_AirflowException e && startswith (str e) (response_error_codes_allowlist s)
    then Returns (PBool false) else Raises e.
Proof.
  intros H. unfold_eff. rewrite H; simpl.
  eff_cases; reflexivity.
Qed.

(** The request returns and no check is configured. *)
Lemma poke_no_check (r : Response) :
  http w (requests st) (hook_call s) = Returns r ->
  response_check s = None ->
  (poke w s context st).1 = Returns (PBool true).
Proof.
  intros H Hc. unfold_eff. rewrite H, Hc; reflexivity.
Qed.

(** The request returns and the check is called. *)
Lemma poke_check (r : Response) (f : Callable) :
  http w (requests st) (hook_call s) = Returns r ->
  response_check s = Some f ->
  (poke w s context st).1 =
    match call f r (determine_kwargs f context) with
    | Returns v => Returns v
    | Raises e =>
        if is_AirflowException e && startswith (str e) (response_error_codes_allowlist s)
        then Returns (PBool false) else Raises e
    | Unfinished => Unfinished
    end.
Proof.
  intros H Hc. unfold_eff. rewrite H, Hc; simpl.
  eff_cases; reflexivity.
Qed.

End PokeFacts.

(** ** Traces *)

Lemma defer_calls_app (t u : list Event) :
  defer_calls (t ++ u) = defer_calls t ++ defer_calls u.
Proof. apply omap_app. Qed.

Lemma hook_calls_app (t u : list Event) :
  hook_calls (t ++ u) = hook_calls t ++ hook_calls u.
Proof. apply omap_app. Qed.

Lemma poke_defer_calls w s context st :
  defer_calls (trace (poke w s context st).2) = defer_calls (trace st).
Proof.
  rewrite poke_state; simpl. rewrite defer_calls_app; simpl.
  apply app_nil_r.
Qed.

(** The blocking loop of the base class only pokes and sleeps. *)
Lemma blocking_loop_defer_calls w s context fuel :
  forall elapsed st,
    defer_calls
      (trace (blocking_loop fuel (poke w s context)
                (poke_interval s) (timeout s) elapsed st).2)
    = defer_calls (trace st).
Proof.
  induction fuel as [|fuel IH]; intros elapsed st; [reflexivity|].
  simpl. unfold bind at 1.
  pose proof (poke_defer_calls w s context st) as Hp.
  destruct (poke w s context st) as [[r|e|] st']; simpl in *; try exact Hp.
  destruct (truthy r); [exact Hp|].
  destruct (timeout s <? elapsed)%N; [exact Hp|].
  unfold bind, emit; simpl. rewrite IH; simpl.
  rewrite defer_calls_app; simpl. rewrite app_nil_r. exact Hp.
Qed.

(** With a positive interval the loop ends within [limit + 1 - elapsed + 1]
    pokes, unless a poke itself never ends. *)
Lemma blocking_loop_finishes (poke_fn : Eff PokeResult) (interval limit : N) :
  (0 < interval)%N ->
  (forall st, (poke_fn st).1 <> Unfinished) ->
  forall fuel elapsed st,
    N.to_nat (limit + 1 - elapsed) + 1 <= fuel ->
    (blocking_loop fuel poke_fn interval limit elapsed st).1 <> Unfinished.
Proof.
  intros Hpos Hpoke. induction fuel as [|fuel IH]; intros elapsed st Hfuel; [lia|].
  simpl. unfold bind at 1. specialize (Hpoke st).
  destruct (poke_fn st) as [[r|e|] st']; simpl in *; try easy.
  destruct (truthy r); [easy|].
  destruct (N.ltb_spec limit elapsed) as [Hlt|Hle]; [easy|].
  unfold bind, emit; simpl. apply IH. lia.
Qed.

(** ** Errors of the request and the allow-list *)

(** C1, as amended: for every allow-list and every error of the
    AirflowException family that the request raises, [poke] returns [False]
    if and only if some element of the allow-list is a prefix of the error's
    message; when none is, the same error leaves [poke]. *)
Theorem poke_allowlist_airflow_error
    (w : World) (s : HttpSensor) (context : gmap string PyValue) (st : State)
    (e : Exception) :
  http w (requests st) (hook_call s) = Raises e ->
  is_AirflowException e = true ->
  ((poke w s context st).1 = Returns (PBool false) <->
   exists p, p ∈ response_error_codes_allowlist s /\ is_prefix_of p (str e))
  /\ ((~ exists p, p ∈ response_error_codes_allowlist s /\ is_prefix_of p (str e)) ->
      (poke w s context st).1 = Raises e).
Proof.
  intros Hraise Hfam.
  rewrite (poke_request_raises w s context st e Hraise), Hfam; simpl.
  rewrite <- startswith_some_prefix.
  destruct (startswith (str e) (response_error_codes_allowlist s)); split.
  - split; reflexivity.
  - intros H. now contradiction H.
  - split; discriminate.
  - reflexivity.
Qed.

Lemma poke_allowlist_airflow_error_witness :
  (poke (steady (Raises (http_error "404" "Not Found")) (Returns tt))
     wait_ready ∅ initial).1 = Returns (PBool false).
Proof.
  apply (poke_allowlist_airflow_error
           (steady (Raises (http_error "404" "Not Found")) (Returns tt))
           wait_ready ∅ initial (http_error "404" "Not Found")).
  - reflexivity.
  - reflexivity.
  - exists "404". split; [apply list_elem_of_here | exists ":Not Found"; reflexivity].
Defined.

(** C1, as stated, fails outside the AirflowException family: a connection
    error whose message starts with the allow-listed 404 is not turned
    into [False]. *)
Lemma poke_allowlist_any_error_counterexample :
  http (steady (Raises connection_error) (Returns tt)) (requests initial)
    (hook_call wait_ready) = Raises connection_error
  /\ ~ ((poke (steady (Raises connection_error) (Returns tt)) wait_ready ∅ initial).1
          = Returns (PBool false)
        <-> exists p, p ∈ response_error_codes_allowlist wait_ready
                      /\ is_prefix_of p (str connection_error)).
Proof.
  split; [reflexivity|].
  intros [_ H].
  assert (Hp : exists p, p ∈ response_error_codes_allowlist wait_ready
                         /\ is_prefix_of p (str connection_error)).
  { exists "404". split; [apply list_elem_of_here|].
    exists " attempts to reach the host failed". reflexivity. }
  specialize (H Hp). discriminate H.
Qed.

(** C9: an exception outside the AirflowException family, raised by the
    request or by the response check, leaves [poke] as it is, whatever its
    message and whatever the allow-list. *)
Theorem poke_other_exception_propagates
    (w : World) (s : HttpSensor) (context : gmap string PyValue) (st : State)
    (e : Exception) :
  is_AirflowException e = false ->
  (http w (requests st) (hook_call s) = Raises e
   \/ exists r f, http w (requests st) (hook_call s) = Returns r
                  /\ response_check s = Some f
                  /\ call f r (determine_kwargs f context) = Raises e) ->
  (poke w s context st).1 = Raises e.
Proof.
  intros Hfam [Hraise | (r & f & Hret & Hcheck & Hcall)].
  - now rewrite (poke_request_raises w s context st e Hraise), Hfam.
  - now rewrite (poke_check w s context st r f Hret Hcheck), Hcall, Hfam.
Qed.

Lemma poke_other_exception_propagates_witness :
  startswith (str connection_error) (response_error_codes_allowlist wait_ready) = true
  /\ (poke (steady (Raises connection_error) (Returns tt)) wait_ready ∅ initial).1
     = Raises connection_error.
Proof.
  split; [reflexivity|].
  apply (poke_other_exception_propagates
           (steady (Raises connection_error) (Returns tt))
           wait_ready ∅ initial connection_error).
  - reflexivity.
  - left. reflexivity.
Defined.

(** C4: an allow-list left at [None] becomes exactly 404; with it a 404
    error makes [poke] return [False] and a 403 error leaves [poke]; with
    the empty list a 404 error leaves [poke] too. *)
Theorem default_allowlist_scenarios
    (w : World) (a : InitArgs) (context : gmap string PyValue) (st : State)
    (reason : string) :
  (arg_response_error_codes_allowlist a = None ->
   response_error_codes_allowlist (init a) = ["404"])
  /\ (arg_response_error_codes_allowlist a = None ->
      http w (requests st) (hook_call (init a)) = Raises (http_error "404" reason) ->
      (poke w (init a) context st).1 = Returns (PBool false))
  /\ (arg_response_error_codes_allowlist a = None ->
      http w (requests st) (hook_call (init a)) = Raises (http_error "403" reason) ->
      (poke w (init a) context st).1 = Raises (http_error "403" reason))
  /\ (arg_response_error_codes_allowlist a = Some [] ->
      http w (requests st) (hook_call (init a)) = Raises (http_error "404" reason) ->
      (poke w (init a) context st).1 = Raises (http_error "404" reason)).
Proof.
  assert (Hlist : forall l, arg_response_error_codes_allowlist a = l ->
            response_error_codes_allowlist (init a)
            = match l with None => ["404"] | Some l => l end).
  { intros l <-. reflexivity. }
  repeat split.
  - intros H. apply (Hlist _ H).
  - intros H Hraise. rewrite (poke_request_raises _ _ _ _ _ Hraise), (Hlist _ H).
    reflexivity.
  - intros H Hraise. rewrite (poke_request_raises _ _ _ _ _ Hraise), (Hlist _ H).
    reflexivity.
  - intros H Hraise. rewrite (poke_request_raises _ _ _ _ _ Hraise), (Hlist _ H).
    reflexivity.
Qed.

Lemma default_allowlist_scenarios_witness :
  response_error_codes_allowlist wait_ready = ["404"]
  /\ (poke (steady (Raises (http_error "404" "Not Found")) (Returns tt))
        wait_ready ∅ initial).1 = Returns (PBool false)
  /\ (poke (steady (Raises (http_error "403" "Forbidden")) (Returns tt))
        wait_ready ∅ initial).1 = Raises (http_error "403" "Forbidden").
Proof.
  split; [|split].
  - apply (default_allowlist_scenarios
             (steady (Raises (http_error "404" "Not Found")) (Returns tt))
             (default_args "wait_ready" "/ready" false) ∅ initial "Not Found").
    reflexivity.
  - apply (default_allowlist_scenarios
             (steady (Raises (http_error "404" "Not Found")) (Returns tt))
             (default_args "wait_ready" "/ready" false) ∅ initial "Not Found");
      reflexivity.
  - apply (default_allowlist_scenarios
             (steady (Raises (http_error "403" "Forbidden")) (Returns tt))
             (default_args "wait_ready" "/ready" false) ∅ initial "Forbidden");
      reflexivity.
Defined.

(** ** Requests that complete *)

(** C5: when the request completes without error, [poke] returns what the
    configured check returns on the response and the keyword arguments
    selected from the context, and [True] when no check is configured. *)
Theorem poke_success_outcome
    (w : World) (s : HttpSensor) (context : gmap string PyValue) (st : State)
    (r : Response) :
  http w (requests st) (hook_call s) = Returns r ->
  match response_check s with
  | Some f =>
      forall v, call f r (determine_kwargs f context) = Returns v ->
                (poke w s context st).1 = Returns v
  | None => (poke w s context st).1 = Returns (PBool true)
  end.
Proof.
  intros Hret. destruct (response_check s) as [f|] eqn:Hcheck.
  - intros v Hcall. now rewrite (poke_check w s context st r f Hret Hcheck), Hcall.
  - now apply (poke_no_check w s context st r).
Qed.

Lemma poke_success_outcome_witness :
  (poke (steady (Returns ok_response) (Returns tt))
     wait_ready_checked sample_context initial).1 = Returns (PBool true).
Proof.
  apply (poke_success_outcome (steady (Returns ok_response) (Returns tt))
           wait_ready_checked sample_context initial ok_response).
  - reflexivity.
  - vm_compute. reflexivity.
Defined.

(** ** Execution and deferral *)

(** The deferrable path of [execute], step by step. *)
Lemma execute_deferrable_steps
    (w : World) (fuel : nat) (s : HttpSensor) (context : gmap string PyValue)
    (st : State) :
  deferrable s = true ->
  response_check s = None ->
  execute w fuel s context st =
    match poke w s context st with
    | (Returns r, st') =>
        if truthy r then (Returns VNone, st')
        else
          let deferred :=
            {| trace := trace st' ++ [Defer (defer_call s)];
               requests := requests st' |} in
          match defer_outcome w (defer_call s) with
          | Returns _ => (Returns VNone, deferred)
          | Raises e => (Raises e, deferred)
          | Unfinished => (Unfinished, deferred)
          end
    | (Raises e, st') => (Raises e, st')
    | (Unfinished, st') => (Unfinished, st')
    end.
Proof.
  intros Hdef Hcheck. unfold execute. rewrite Hdef, Hcheck; simpl.
  unfold bind at 1.
  destruct (poke w s context st) as [[r|e|] st']; try reflexivity.
  destruct (truthy r); simpl; [reflexivity|].
  unfold bind, defer, bind, emit, outcome, ret; simpl.
  destruct (defer_outcome w (defer_call s)); reflexivity.
Qed.

(** C2: with a response check configured, [execute] is the blocking loop of
    the base class, deferrable or not, and no [defer] call is made. *)
Theorem execute_with_check_never_defers
    (w : World) (fuel : nat) (s : HttpSensor) (context : gmap string PyValue)
    (st : State) (f : Callable) :
  response_check s = Some f ->
  execute w fuel s context st = BaseSensorOperator_execute w fuel s context st
  /\ defer_calls (trace (execute w fuel s context st).2) = defer_calls (trace st).
Proof.
  intros Hcheck.
  assert (Hpath : execute w fuel s context st
                  = BaseSensorOperator_execute w fuel s context st).
  { unfold execute. rewrite Hcheck. now rewrite orb_true_r. }
  split; [exact Hpath|].
  rewrite Hpath. apply blocking_loop_defer_calls.
Qed.

Lemma execute_with_check_never_defers_witness :
  deferrable wait_ready_checked = true
  /\ defer_calls
       (trace (execute (steady (Raises (http_error "404" "Not Found")) (Returns tt))
                 10 wait_ready_checked sample_context initial).2) = [].
Proof.
  split; [reflexivity|].
  apply (execute_with_check_never_defers
           (steady (Raises (http_error "404" "Not Found")) (Returns tt))
           10 wait_ready_checked sample_context initial body_ok).
  reflexivity.
Defined.

(** C3: deferrable, no response check, and the first poke is not
    satisfied: [execute] makes exactly one [defer] call, whose trigger
    carries the sensor's endpoint, connection, request parameters, headers,
    method, extra options and poke interval, and whose timeout is the
    sensor's timeout; the poke's request is the only one sent. *)
Theorem execute_defers_once
    (w : World) (fuel : nat) (s : HttpSensor) (context : gmap string PyValue)
    (st : State) (r : PokeResult) :
  deferrable s = true ->
  response_check s = None ->
  (poke w s context st).1 = Returns r ->
  truthy r = false ->
  defer_calls (trace (execute w fuel s context st).2)
  = defer_calls (trace st) ++
    [ {| defer_timeout := {| seconds := timeout s |};
         defer_trigger :=
           {| trigger_endpoint := endpoint s;
              trigger_http_conn_id := http_conn_id s;
              trigger_data := request_params s;
              trigger_headers := headers s;
              trigger_method := method s;
              trigger_extra_options := extra_options s;
              trigger_poke_interval := poke_interval s |};
         defer_method_name := "execute_complete" |} ]
  /\ requests (execute w fuel s context st).2 = S (requests st).
Proof.
  intros Hdef Hcheck Hpoke Hfalse.
  rewrite (execute_deferrable_steps w fuel s context st Hdef Hcheck).
  pose proof (poke_state w s context st) as Hst.
  destruct (poke w s context st) as [res st']; simpl in *. subst res st'.
  rewrite Hfalse; simpl.
  destruct (defer_outcome w (defer_call s)); simpl;
    (split; [|reflexivity]);
    rewrite !defer_calls_app; simpl; now rewrite app_nil_r.
Qed.

Lemma execute_defers_once_witness :
  length (defer_calls
            (trace (execute (steady (Raises (http_error "404" "Not Found"))
                               (Raises task_deferred))
                      0 wait_ready_deferrable ∅ initial).2)) = 1.
Proof.
  destruct (execute_defers_once
              (steady (Raises (http_error "404" "Not Found")) (Raises task_deferred))
              0 wait_ready_deferrable ∅ initial (PBool false)) as [H _].
  - reflexivity.
  - reflexivity.
  - reflexivity.
  - reflexivity.
  - rewrite H. reflexivity.
Defined.

(** C10: deferrable and no response check: every run of [execute] that
    returns, returns [None]; that is so after a satisfied poke, and after an
    unsatisfied one when the [defer] call returns. *)
Theorem execute_deferrable_returns_none
    (w : World) (fuel : nat) (s : HttpSensor) (context : gmap string PyValue)
    (st : State) :
  deferrable s = true ->
  response_check s = None ->
  (forall v, (execute w fuel s context st).1 = Returns v -> v = VNone)
  /\ (forall r, (poke w s context st).1 = Returns r -> truthy r = true ->
                (execute w fuel s context st).1 = Returns VNone)
  /\ (forall r, (poke w s context st).1 = Returns r -> truthy r = false ->
                defer_outcome w (defer_call s) = Returns tt ->
                (execute w fuel s context st).1 = Returns VNone).
Proof.
  intros Hdef Hcheck.
  rewrite (execute_deferrable_steps w fuel s context st Hdef Hcheck).
  destruct (poke w s context st) as [[r|e|] st']; simpl.
  - repeat split.
    + intros v. destruct (truthy r); simpl; [congruence|].
      destruct (defer_outcome w (defer_call s)); simpl; congruence.
    + intros r' [= <-] Ht. now rewrite Ht.
    + intros r' [= <-] Ht Hd. now rewrite Ht, Hd.
  - repeat split; intros; discriminate.
  - repeat split; intros; discriminate.
Qed.

Lemma execute_deferrable_returns_none_witness :
  (execute (steady (Returns ok_response) (Raises task_deferred))
     0 wait_ready_deferrable ∅ initial).1 = Returns VNone
  /\ (execute (steady (Raises (http_error "404" "Not Found")) (Returns tt))
        0 wait_ready_deferrable ∅ initial).1 = Returns VNone.
Proof.
  split.
  - destruct (execute_deferrable_returns_none
                (steady (Returns ok_response) (Raises task_deferred))
                0 wait_ready_deferrable ∅ initial) as (_ & H & _);
      [reflexivity | reflexivity |].
    apply (H (PBool true)); reflexivity.
  - destruct (execute_deferrable_returns_none
                (steady (Raises (http_error "404" "Not Found")) (Returns tt))
                0 wait_ready_deferrable ∅ initial) as (_ & _ & H);
      [reflexivity | reflexivity |].
    apply (H (PBool false)); reflexivity.
Defined.

(** ** Resumption *)

(** C6, as amended: [execute_complete] does not look at the event: for
    every event, one that carries an error included, it returns [None] and
    raises nothing. *)
Theorem execute_complete_ignores_event
    (s : HttpSensor) (context : gmap string PyValue)
    (event : option (gmap string PyValue)) (st : State) :
  (execute_complete s context event st).1 = Returns VNone
  /\ execute_complete s context event st = execute_complete s context None st.
Proof. split; reflexivity. Qed.

(** C6, as stated, fails: the resumption with an event that carries an
    error does not raise. *)
Lemma execute_complete_error_event_counterexample :
  ~ (carries_error error_event ->
     exists e, (execute_complete wait_ready_deferrable ∅ error_event initial).1
               = Raises e).
Proof.
  intros H.
  destruct H as [e He].
  - exists {[ "status" := VStr "error"; "message" := VStr "connection lost" ]}.
    split; [reflexivity|]. vm_compute. reflexivity.
  - discriminate He.
Qed.

(** C7: for every context and event, [execute_complete] only logs the
    completion and returns: no request is sent and no [defer] call made. *)
Theorem execute_complete_terminal
    (s : HttpSensor) (context : gmap string PyValue)
    (event : option (gmap string PyValue)) (st : State) :
  (execute_complete s context event st).1 = Returns VNone
  /\ trace (execute_complete s context event st).2
     = trace st ++ [LogInfo (task_id s +:+ " completed successfully.")]
  /\ requests (execute_complete s context event st).2 = requests st
  /\ hook_calls (trace (execute_complete s context event st).2) = hook_calls (trace st)
  /\ defer_calls (trace (execute_complete s context event st).2) = defer_calls (trace st).
Proof.
  unfold execute_complete, bind, log_info, emit, ret; simpl.
  rewrite hook_calls_app, defer_calls_app; simpl. rewrite !app_nil_r.
  repeat split.
Qed.

(** ** Repeated pokes *)

(** C8: a second poke right after a first, with the endpoint answering the
    second request as it answered the first, has the same outcome. *)
Theorem poke_twice_same_outcome
    (w : World) (s : HttpSensor) (context : gmap string PyValue) (st : State) :
  http w (S (requests st)) (hook_call s) = http w (requests st) (hook_call s) ->
  (poke w s context (poke w s context st).2).1 = (poke w s context st).1.
Proof.
  intros Hsame. rewrite poke_state.
  unfold_eff. rewrite Hsame.
  eff_cases; reflexivity.
Qed.

Lemma poke_twice_same_outcome_witness :
  (poke (steady (Returns ok_response) (Returns tt)) wait_ready_checked sample_context
     (poke (steady (Returns ok_response) (Returns tt)) wait_ready_checked
        sample_context initial).2).1
  = (poke (steady (Returns ok_response) (Returns tt)) wait_ready_checked
       sample_context initial).1.
Proof.
  apply (poke_twice_same_outcome (steady (Returns ok_response) (Returns tt))
           wait_ready_checked sample_context initial).
  reflexivity.
Defined.

(** ** More on the allow-list *)

(** X1: the response check runs inside the same [try] block as the
    request: an AirflowException raised by the check whose message starts
    with an allow-listed prefix is turned into [False] too. *)
Theorem poke_check_error_allowlisted
    (w : World) (s : HttpSensor) (context : gmap string PyValue) (st : State)
    (r : Response) (f : Callable) (e : Exception) :
  http w (requests st) (hook_call s) = Returns r ->
  response_check s = Some f ->
  call f r (determine_kwargs f context) = Raises e ->
  is_AirflowException e = true ->
  startswith (str e) (response_error_codes_allowlist s) = true ->
  (poke w s context st).1 = Returns (PBool false).
Proof.
  intros Hret Hcheck Hcall Hfam Hstart.
  now rewrite (poke_check w s context st r f Hret Hcheck), Hcall, Hfam, Hstart.
Qed.

Lemma poke_check_error_allowlisted_witness :
  (poke (steady (Returns ok_response) (Returns tt))
     (wait_ready_with None (Some check_raises_404)) ∅ initial).1
  = Returns (PBool false).
Proof.
  apply (poke_check_error_allowlisted (steady (Returns ok_response) (Returns tt))
           (wait_ready_with None (Some check_raises_404)) ∅ initial ok_response
           check_raises_404
           {| exc_class := AirflowException;
              exc_message := "404 is not what the check expected" |});
    reflexivity.
Defined.

(** X2: with the empty allow-list nothing is swallowed: whatever error the
    request raises, of whatever class and message, leaves [poke]. *)
Theorem poke_empty_allowlist_propagates
    (w : World) (s : HttpSensor) (context : gmap string PyValue) (st : State)
    (e : Exception) :
  response_error_codes_allowlist s = [] ->
  http w (requests st) (hook_call s) = Raises e ->
  (poke w s context st).1 = Raises e.
Proof.
  intros Hempty Hraise.
  rewrite (poke_request_raises w s context st e Hraise), Hempty; simpl.
  now rewrite andb_false_r.
Qed.

Lemma poke_empty_allowlist_propagates_witness :
  (poke (steady (Raises (http_error "503" "Service Unavailable")) (Returns tt))
     (wait_ready_with (Some []) None) ∅ initial).1
  = Raises (http_error "503" "Service Unavailable").
Proof.
  apply (poke_empty_allowlist_propagates
           (steady (Raises (http_error "503" "Service Unavailable")) (Returns tt))
           (wait_ready_with (Some []) None) ∅ initial
           (http_error "503" "Service Unavailable"));
    reflexivity.
Defined.

(** X3: the empty string in the allow-list is a prefix of every message:
    every AirflowException of the request then becomes [False]. *)
Theorem poke_empty_prefix_swallows_all
    (w : World) (s : HttpSensor) (context : gmap string PyValue) (st : State)
    (e : Exception) :
  "" ∈ response_error_codes_allowlist s ->
  is_AirflowException e = true ->
  http w (requests st) (hook_call s) = Raises e ->
  (poke w s context st).1 = Returns (PBool false).
Proof.
  intros Hin Hfam Hraise.
  rewrite (poke_request_raises w s context st e Hraise), Hfam; simpl.
  assert (Hstart : startswith (str e) (response_error_codes_allowlist s) = true).
  { apply startswith_some_prefix. exists "". split; [exact Hin|].
    exists (str e). reflexivity. }
  now rewrite Hstart.
Qed.

Lemma poke_empty_prefix_swallows_all_witness :
  (poke (steady (Raises (http_error "500" "Internal Server Error")) (Returns tt))
     (wait_ready_with (Some ["404"; ""]) None) ∅ initial).1
  = Returns (PBool false).
Proof.
  apply (poke_empty_prefix_swallows_all
           (steady (Raises (http_error "500" "Internal Server Error")) (Returns tt))
           (wait_ready_with (Some ["404"; ""]) None) ∅ initial
           (http_error "500" "Internal Server Error")).
  - apply list_elem_of_further, list_elem_of_here.
  - reflexivity.
  - reflexivity.
Defined.


(** ** More on the deferrable path *)



(** X6: deferrable and no response check: a [defer] call is made if and
    only if the poke returns a false value; a satisfied poke and a poke
    that raises make none. *)
Theorem execute_defers_iff_unsatisfied
    (w : World) (fuel : nat) (s : HttpSensor) (context : gmap string PyValue)
    (st : State) :
  deferrable s = true ->
  response_check s = None ->
  (defer_calls (trace (execute w fuel s context st).2) <> defer_calls (trace st)
   <-> exists r, (poke w s context st).1 = Returns r /\ truthy r = false).
Proof.
  intros Hdef Hcheck.
  rewrite (execute_deferrable_steps w fuel s context st Hdef Hcheck).
  pose proof (poke_defer_calls w s context st) as Hd.
  destruct (poke w s context st) as [[r|e|] st']; simpl in *.
  - destruct (truthy r) eqn:Ht; simpl.
    + split; [intros H; now contradiction H | intros (r' & [= <-] & Hf); congruence].
    + split; [intros _; now exists r|]. intros _.
      assert (Hgrow : forall l : list DeferCall, l ++ [defer_call s] <> l).
      { intros l H. apply (f_equal length) in H.
        rewrite length_app in H; simpl in H; lia. }
      destruct (defer_outcome w (defer_call s)); simpl;
        rewrite defer_calls_app, Hd; simpl; apply Hgrow.
  - split; [intros H; now contradiction H | intros (r' & H & _); discriminate].
  - split; [intros H; now contradiction H | intros (r' & H & _); discriminate].
Qed.

Lemma execute_defers_iff_unsatisfied_witness :
  defer_calls (trace (execute (steady (Raises (http_error "404" "Not Found"))
                                 (Raises task_deferred))
                        0 wait_ready_deferrable ∅ initial).2)
  <> defer_calls (trace initial).
Proof.
  apply (execute_defers_iff_unsatisfied
           (steady (Raises (http_error "404" "Not Found")) (Raises task_deferred))
           0 wait_ready_deferrable ∅ initial);
    [reflexivity | reflexivity |].
  exists (PBool false). split; reflexivity.
Defined.

(** X7: deferrable and no response check: an exception that leaves the
    poke leaves [execute] unchanged, and nothing happens after the poke. *)
Theorem execute_deferrable_poke_raises
    (w : World) (fuel : nat) (s : HttpSensor) (context : gmap string PyValue)
    (st : State) (e : Exception) :
  deferrable s = true ->
  response_check s = None ->
  (poke w s context st).1 = Raises e ->
  execute w fuel s context st = (Raises e, (poke w s context st).2).
Proof.
  intros Hdef Hcheck Hpoke.
  rewrite (execute_deferrable_steps w fuel s context st Hdef Hcheck).
  destruct (poke w s context st) as [res st']; simpl in *. now subst res.
Qed.

Lemma execute_deferrable_poke_raises_witness :
  (execute (steady (Raises (http_error "403" "Forbidden")) (Raises task_deferred))
     0 wait_ready_deferrable ∅ initial).1
  = Raises (http_error "403" "Forbidden").
Proof.
  rewrite (execute_deferrable_poke_raises
             (steady (Raises (http_error "403" "Forbidden")) (Raises task_deferred))
             0 wait_ready_deferrable ∅ initial (http_error "403" "Forbidden"));
    reflexivity.
Defined.

(** X8: deferrable and no response check: when the poke is not satisfied
    and the [defer] call raises, as it does to hand the task over,
    [execute] ends with that exception. *)
Theorem execute_defer_raises
    (w : World) (fuel : nat) (s : HttpSensor) (context : gmap string PyValue)
    (st : State) (r : PokeResult) (e : Exception) :
  deferrable s = true ->
  response_check s = None ->
  (poke w s context st).1 = Returns r ->
  truthy r = false ->
  defer_outcome w (defer_call s) = Raises e ->
  (execute w fuel s context st).1 = Raises e.
Proof.
  intros Hdef Hcheck Hpoke Hfalse Hdefer.
  rewrite (execute_deferrable_steps w fuel s context st Hdef Hcheck).
  destruct (poke w s context st) as [res st']; simpl in *. subst res.
  now rewrite Hfalse, Hdefer.
Qed.

Lemma execute_defer_raises_witness :
  (execute (steady (Raises (http_error "404" "Not Found")) (Raises task_deferred))
     0 wait_ready_deferrable ∅ initial).1 = Raises task_deferred.
Proof.
  apply (execute_defer_raises
           (steady (Raises (http_error "404" "Not Found")) (Raises task_deferred))
           0 wait_ready_deferrable ∅ initial (PBool false) task_deferred);
    reflexivity.
Defined.

(** X9: deferrable and no response check: an AirflowException of the
    request whose message starts with an allow-listed prefix does not fail
    the task: it makes [execute] defer, with exactly one [defer] call. *)
Theorem execute_allowlisted_error_defers
    (w : World) (fuel : nat) (s : HttpSensor) (context : gmap string PyValue)
    (st : State) (e : Exception) :
  deferrable s = true ->
  response_check s = None ->
  http w (requests st) (hook_call s) = Raises e ->
  is_AirflowException e = true ->
  startswith (str e) (response_error_codes_allowlist s) = true ->
  defer_calls (trace (execute w fuel s context st).2)
  = defer_calls (trace st) ++ [defer_call s].
Proof.
  intros Hdef Hcheck Hraise Hfam Hstart.
  rewrite (execute_deferrable_steps w fuel s context st Hdef Hcheck).
  pose proof (poke_request_raises w s context st e Hraise) as Hres.
  rewrite Hfam, Hstart in Hres; simpl in Hres.
  pose proof (poke_defer_calls w s context st) as Hd.
  destruct (poke w s context st) as [res st']; simpl in *. subst res; simpl.
  destruct (defer_outcome w (defer_call s)); simpl;
    now rewrite defer_calls_app, Hd.
Qed.

Lemma execute_allowlisted_error_defers_witness :
  defer_calls (trace (execute (steady (Raises (http_error "404" "Not Found"))
                                 (Raises task_deferred))
                        0 wait_ready_deferrable ∅ initial).2)
  = [defer_call wait_ready_deferrable].
Proof.
  apply (execute_allowlisted_error_defers
           (steady (Raises (http_error "404" "Not Found")) (Raises task_deferred))
           0 wait_ready_deferrable ∅ initial (http_error "404" "Not Found"));
    reflexivity.
Defined.

(** X10: a sensor that is not deferrable runs the blocking loop of the
    base class and makes no [defer] call, with or without a response
    check. *)
Theorem execute_not_deferrable_never_defers
    (w : World) (fuel : nat) (s : HttpSensor) (context : gmap string PyValue)
    (st : State) :
  deferrable s = false ->
  execute w fuel s context st = BaseSensorOperator_execute w fuel s context st
  /\ defer_calls (trace (execute w fuel s context st).2) = defer_calls (trace st).
Proof.
  intros Hdef.
  assert (Hpath : execute w fuel s context st
                  = BaseSensorOperator_execute w fuel s context st).
  { unfold execute. now rewrite Hdef. }
  split; [exact Hpath|].
  rewrite Hpath. apply blocking_loop_defer_calls.
Qed.

Lemma execute_not_deferrable_never_defers_witness :
  defer_calls
    (trace (execute (steady (Raises (http_error "404" "Not Found")) (Returns tt))
              5 wait_ready ∅ initial).2) = [].
Proof.
  apply (execute_not_deferrable_never_defers
           (steady (Raises (http_error "404" "Not Found")) (Returns tt))
           5 wait_ready ∅ initial).
  reflexivity.
Defined.

(** ** The REMOTE_USER backend: who gets through *)

Section RemoteUserAuthFacts.

Import RemoteUserAuth.

Variable find_user : Keyword -> string -> option User.

Lemma has_user_id_some (remote_user : option string) (user_id : string) :
  has_user_id remote_user = Some user_id <->
  remote_user = Some user_id /\ user_id <> "".
Proof.
  unfold has_user_id. destruct remote_user as [v|]; [|split; [discriminate | intros [H _]; discriminate]].
  destruct (String.eqb_spec v "") as [->|Hne].
  - split; [discriminate | intros [[= <-] H]; now contradiction H].
  - split; [intros [= <-]; now split | intros [[= <-] _]; reflexivity].
Qed.

(** The lookups of [_lookup_user] log nobody in and call nothing. *)
Lemma lookup_user_quiet (key : string) :
  logins (_lookup_user find_user key).2 = [] /\ calls (_lookup_user find_user key).2 = 0.
Proof.
  unfold _lookup_user.
  destruct (find_user ByEmail key) as [u|]; [|destruct (find_user ByUsername key) as [u|]];
    try destruct (is_active u); split; reflexivity.
Qed.

(** X11: a request without REMOTE_USER, or with an empty one, is answered
    403 Forbidden: no user is looked up, nobody is logged in and the
    decorated function is not called. *)
Theorem missing_remote_user_forbidden
    {Args A : Type} (function : Args -> A) (remote_user : option string) (args : Args) :
  remote_user = None \/ remote_user = Some "" ->
  requires_authentication find_user function remote_user args
  = (inl {| body := "Forbidden"; status := 403 |}, [Debug "Missing REMOTE_USER." []]).
Proof. intros [-> | ->]; reflexivity. Qed.

(** X12: [_lookup_user] returns a user exactly when that user is active
    and is the match by e-mail, or is the match by user name when no
    account has the key as e-mail. *)
Theorem lookup_user_found_iff (key : string) (u : User) :
  (_lookup_user find_user key).1 = Some u <->
  is_active u = true
  /\ (find_user ByEmail key = Some u
      \/ (find_user ByEmail key = None /\ find_user ByUsername key = Some u)).
Proof.
  unfold _lookup_user.
  destruct (find_user ByEmail key) as [v|] eqn:He.
  - destruct (is_active v) eqn:Ha; simpl.
    + split.
      * intros [= <-]. split; [exact Ha | now left].
      * intros [_ [[= <-] | [H _]]]; [reflexivity | discriminate].
    + split; [discriminate|].
      intros [Hu [[= <-] | [H _]]]; [congruence | discriminate].
  - destruct (find_user ByUsername key) as [v|] eqn:Hn; simpl.
    + destruct (is_active v) eqn:Ha; simpl.
      * split.
        -- intros [= <-]. split; [exact Ha | now right].
        -- intros [_ [H | [_ [= <-]]]]; [discriminate | reflexivity].
      * split; [discriminate|].
        intros [Hu [H | [_ [= <-]]]]; [discriminate | congruence].
    + split; [discriminate|].
      intros [_ [H | [_ H]]]; discriminate.
Qed.

(** X13: the match by e-mail comes first and is final: when it is a
    deactivated account, nobody is returned and the lookup by user name is
    not even made, whoever has the key as user name. *)
Theorem inactive_email_match_shadows (key : string) (u : User) :
  find_user ByEmail key = Some u ->
  is_active u = false ->
  _lookup_user find_user key = (None, [FindUser ByEmail key]).
Proof.
  intros He Ha. unfold _lookup_user. now rewrite He, Ha.
Qed.

(** X14: the decorated function is reached only through a log-in: when the
    wrapper returns the function's result, REMOTE_USER was not empty,
    [_lookup_user] returned an active user, and the trace ends with the
    [login_user(user, remember=False)] call for that user followed by the
    one call of the function; before them nobody was logged in and nothing
    was called. *)
Theorem authenticated_call
    {Args A : Type} (function : Args -> A) (remote_user : option string) (args : Args)
    (a : A) :
  (requires_authentication find_user function remote_user args).1 = inr a ->
  a = function args
  /\ exists user_id u,
       remote_user = Some user_id /\ user_id <> ""
       /\ (_lookup_user find_user user_id).1 = Some u
       /\ is_active u = true
       /\ exists before,
            (requires_authentication find_user function remote_user args).2
            = before ++ [Debug "Found user: %s" [ArgUser u]; LoginUser u false; Call]
            /\ logins before = [] /\ calls before = 0.
Proof.
  unfold requires_authentication.
  destruct (has_user_id remote_user) as [user_id|] eqn:Hid; [|discriminate].
  apply has_user_id_some in Hid as [-> Hne].
  pose proof (lookup_user_quiet user_id) as [Hl Hc].
  pose proof (lookup_user_found_iff user_id) as Hfound.
  destruct (_lookup_user find_user user_id) as [[u|] lookups] eqn:Hlk;
    simpl in *; [|discriminate].
  intros [= <-]. split; [reflexivity|].
  exists user_id, u. rewrite Hlk; simpl.
  split; [reflexivity|]. split; [exact Hne|]. split; [reflexivity|].
  split; [now apply (Hfound u)|].
  exists (Debug "Looking for user: %s" [ArgStr user_id] :: lookups).
  split; [reflexivity|]. split; [exact Hl | exact Hc].
Qed.

(** X15: every other answer of the wrapper is 403 Forbidden, given without
    logging anybody in and without calling the decorated function. *)
Theorem forbidden_no_login_no_call
    {Args A : Type} (function : Args -> A) (remote_user : option string) (args : Args)
    (r : Response) :
  (requires_authentication find_user function remote_user args).1 = inl r ->
  r = {| body := "Forbidden"; status := 403 |}
  /\ logins (requires_authentication find_user function remote_user args).2 = []
  /\ calls (requires_authentication find_user function remote_user args).2 = 0.
Proof.
  unfold requires_authentication.
  destruct (has_user_id remote_user) as [user_id|] eqn:Hid.
  - pose proof (lookup_user_quiet user_id) as [Hl Hc].
    destruct (_lookup_user find_user user_id) as [[u|] lookups]; simpl in *; [discriminate|].
    intros [= <-]. repeat split; assumption.
  - simpl. intros [= <-]. repeat split.
Qed.

(** X16: a request whose REMOTE_USER is not empty and for which
    [_lookup_user] returns a user gets the decorated function's result;
    that user is logged in once, without remembering, and the function is
    called once. *)
Theorem active_user_passes
    {Args A : Type} (function : Args -> A) (user_id : string) (args : Args) (u : User) :
  user_id <> "" ->
  (_lookup_user find_user user_id).1 = Some u ->
  (requires_authentication find_user function (Some user_id) args).1 = inr (function args)
  /\ logins (requires_authentication find_user function (Some user_id) args).2
     = [(u, false)]
  /\ calls (requires_authentication find_user function (Some user_id) args).2 = 1.
Proof.
  intros Hne Hfound. unfold requires_authentication.
  assert (Hid : has_user_id (Some user_id) = Some user_id)
    by now apply has_user_id_some.
  rewrite Hid.
  pose proof (lookup_user_quiet user_id) as [Hl Hc].
  destruct (_lookup_user find_user user_id) as [user lookups].
  simpl in Hfound, Hl, Hc. subst user.
  unfold logins, calls in *. simpl.
  rewrite !omap_app, length_app, Hl, Hc. repeat split.
Qed.

End RemoteUserAuthFacts.

Lemma missing_remote_user_forbidden_witness :
  (RemoteUserAuth.requires_authentication RemoteUserAuth.directory
     (fun _ : unit => "secret") (Some "") tt).1
  = inl {| RemoteUserAuth.body := "Forbidden"; RemoteUserAuth.status := 403 |}.
Proof.
  rewrite (missing_remote_user_forbidden RemoteUserAuth.directory
             (fun _ : unit => "secret") (Some "") tt); [reflexivity|].
  right. reflexivity.
Defined.

Lemma inactive_email_match_shadows_witness :
  RemoteUserAuth.directory RemoteUserAuth.ByUsername "shared@example.org"
  = Some RemoteUserAuth.bob
  /\ RemoteUserAuth.is_active RemoteUserAuth.bob = true
  /\ (RemoteUserAuth._lookup_user RemoteUserAuth.directory "shared@example.org").1 = None.
Proof.
  split; [reflexivity|]. split; [reflexivity|].
  rewrite (inactive_email_match_shadows RemoteUserAuth.directory
             "shared@example.org" RemoteUserAuth.alice); reflexivity.
Defined.

Lemma authenticated_call_witness :
  exists user_id u,
    Some "bob@example.org" = Some user_id
    /\ (RemoteUserAuth._lookup_user RemoteUserAuth.directory user_id).1 = Some u
    /\ RemoteUserAuth.is_active u = true.
Proof.
  destruct (authenticated_call RemoteUserAuth.directory
              (fun _ : unit => "secret") (Some "bob@example.org") tt "secret")
    as (_ & user_id & u & Hid & _ & Hfound & Hactive & _).
  - reflexivity.
  - exists user_id, u. repeat split; assumption.
Defined.

Lemma forbidden_no_login_no_call_witness :
  RemoteUserAuth.calls
    (RemoteUserAuth.requires_authentication RemoteUserAuth.directory
       (fun _ : unit => "secret") (Some "shared@example.org") tt).2 = 0.
Proof.
  apply (forbidden_no_login_no_call RemoteUserAuth.directory
           (fun _ : unit => "secret") (Some "shared@example.org") tt
           {| RemoteUserAuth.body := "Forbidden"; RemoteUserAuth.status := 403 |}).
  reflexivity.
Defined.

Lemma active_user_passes_witness :
  (RemoteUserAuth.requires_authentication RemoteUserAuth.directory
     (fun _ : unit => "secret") (Some "bob@example.org") tt).1 = inr "secret".
Proof.
  apply (active_user_passes RemoteUserAuth.directory
           (fun _ : unit => "secret") "bob@example.org" tt RemoteUserAuth.bob).
  - discriminate.
  - reflexivity.
Defined.
